(** * Format-on-type and the manual format action

    A shallow embedding of [FormatOnType] and [FormatAction] (the editor's
    format contribution) together with the properties their specification
    states about them.

    The editor, the provider registries and the command machinery are
    collaborators of this code: they appear here as the record [Editor], the
    record [Host] and a log of the calls made to them.  Closure variables of
    [FormatOnType.trigger] ([position], [canceled], [unbind]) live in a
    [Watch]; the watches of all requests in flight are kept in the world, a
    watch being named by its index.  Line numbers and versions are JavaScript
    numbers holding integers and are modelled by [Z]. *)

From Stdlib Require Import ZArith Bool.
From stdpp Require Import base option list strings.

(** ** Data of the editor core *)

Record Position := { lineNumber : Z; column : Z }.

(** [Selection extends Range]: the four coordinates are all the code reads. *)
Record Selection := {
  startLineNumber : Z;
  startColumn : Z;
  endLineNumber : Z;
  endColumn : Z
}.

(** [Range.isEmpty]: start and end coincide. *)
Definition isEmpty (s : Selection) : bool :=
  (startLineNumber s =? endLineNumber s)%Z && (startColumn s =? endColumn s)%Z.

Record ISingleEditOperation := { range : Selection; text : string }.

(** [new EditOperationsCommand(edits, initialSelection)]. *)
Record EditOperationsCommand := {
  edits : list ISingleEditOperation;
  initialSelection : Selection
}.

Record FormattingOptions := { tabSize : Z; insertSpaces : bool }.

Record Model := {
  uri : string;
  versionId : Z;
  getOptions : FormattingOptions
}.

Record OnTypeFormattingEditProvider := {
  autoFormatTriggerCharacters : option (list string)
}.

(** The raw content changes of a model, by [changeType].  [changeType] is a
    string: [ModelRawContentChangedOther] stands for any value that none of
    the four comparisons of the listener matches. *)
Inductive IModelContentChangedEvent :=
| ModelRawContentChangedFlush
| ModelRawContentChangedLineChanged (lineNumber : Z)
| ModelRawContentChangedLinesInserted (fromLineNumber toLineNumber : Z)
| ModelRawContentChangedLinesDeleted (fromLineNumber toLineNumber : Z)
| ModelRawContentChangedOther.

(** Modelled from the spec: the view state is the snapshot of scroll and
    selection that [saveViewState] returns and [restoreViewState] puts back;
    the editor's own implementation is not part of these sources. *)
Record IEditorViewState := {
  vsScrollTop : Z;
  vsSelections : list Selection;
  vsSelection : Selection;
  vsPosition : Position
}.

(** Modelled from the spec: the token of
    [captureState(Value, Position)] records the document's content version
    and the cursor position; [validate] compares it with a fresh capture. *)
Record CodeEditorState := {
  csModelVersionId : option (string * Z);
  csPosition : Position
}.

(** ** The editor as this code observes it *)

Record Editor := {
  formatOnType : bool;            (* getConfiguration().contribInfo.formatOnType *)
  model : option Model;           (* getModel(), null when detached *)
  selections : list Selection;    (* getSelections() *)
  selection : Selection;          (* getSelection() *)
  position : Position;            (* getPosition() *)
  scrollTop : Z;
  focused : bool
}.

(** The closure of one [trigger] call. *)
Record Watch := {
  anchor : Position;   (* var position *)
  canceled : bool;     (* var canceled *)
  bound : bool         (* false once unbind.dispose() has run *)
}.

(** Calls made to the collaborators, in the order they are made. *)
Inductive Call :=
| CallOnTypeFormattingEdits (m : Model) (p : Position) (ch : string) (o : FormattingOptions)
| CallDocumentFormattingEdits (m : Model) (o : FormattingOptions)
| CallDocumentRangeFormattingEdits (m : Model) (r : Selection) (o : FormattingOptions)
| CallCaptureState (s : CodeEditorState)
| CallSaveViewState
| CallExecuteCommand (id : string) (c : EditOperationsCommand)
| CallRestoreViewState (s : IEditorViewState)
| CallFocus.

(** Modelled from the spec: what the registries answer for a model, and what
    executing a command does to the editor.  [ordered] is
    [OnTypeFormattingEditProviderRegistry.ordered]; [documentFormatting] and
    [rangeFormatting] tell whether the request function of that mode yields
    a promise (no applicable provider yields none); [commandEffect] is the
    command's effect on document, selection and scroll position, and
    [commandChanges] the raw content changes that the model announces for
    the edits of the command. *)
Record Host := {
  ordered : Model -> list OnTypeFormattingEditProvider;
  documentFormatting : Model -> bool;
  rangeFormatting : Model -> bool;
  commandEffect : EditOperationsCommand -> Editor -> Editor;
  commandChanges : EditOperationsCommand -> Editor -> list IModelContentChangedEvent
}.

Record World := {
  host : Host;
  editor : Editor;
  callOnModel : list string;   (* the typing listeners, by character *)
  watches : list Watch;        (* listeners of onDidChangeModelRawContent *)
  calls : list Call
}.

Definition set_editor (f : Editor -> Editor) (w : World) : World :=
  {| host := host w; editor := f (editor w); callOnModel := callOnModel w;
     watches := watches w; calls := calls w |}.

Definition set_callOnModel (f : list string -> list string) (w : World) : World :=
  {| host := host w; editor := editor w; callOnModel := f (callOnModel w);
     watches := watches w; calls := calls w |}.

Definition set_watches (f : list Watch -> list Watch) (w : World) : World :=
  {| host := host w; editor := editor w; callOnModel := callOnModel w;
     watches := f (watches w); calls := calls w |}.

Definition set_calls (f : list Call -> list Call) (w : World) : World :=
  {| host := host w; editor := editor w; callOnModel := callOnModel w;
     watches := watches w; calls := f (calls w) |}.

(** ** Computations: state and exceptions *)

Inductive Outcome (A : Type) :=
| Returned (a : A)
| Thrown (err : string).
Arguments Returned {A} a.
Arguments Thrown {A} err.

Definition Eff (A : Type) : Type := World -> Outcome A * World.

#[global] Instance Eff_ret : MRet Eff := fun A a w => (Returned a, w).

#[global] Instance Eff_fmap : FMap Eff := fun A B f c w =>
  match c w with
  | (Returned a, w') => (Returned (f a), w')
  | (Thrown err, w') => (Thrown err, w')
  end.

#[global] Instance Eff_bind : MBind Eff := fun A B f c w =>
  match c w with
  | (Returned a, w') => f a w'
  | (Thrown err, w') => (Thrown err, w')
  end.

Definition throw {A : Type} (err : string) : Eff A := fun w => (Thrown err, w).

Definition gets {A : Type} (f : World -> A) : Eff A := fun w => (Returned (f w), w).

Definition modify (f : World -> World) : Eff unit := fun w => (Returned tt, f w).

Definition call (c : Call) : Eff unit := modify (set_calls (fun l => l ++ [c])).

(** Statements executed in order, as [forEach] does. *)
Fixpoint forEach {A : Type} (f : A -> Eff unit) (l : list A) : Eff unit :=
  match l with
  | [] => mret tt
  | x :: l' => f x ;; forEach f l'
  end.

(** ** The listener of an on-type request *)

(** [FormatOnType.trigger] hands the listener below to the editor, whose
    model calls it at every raw content change, those of an executed command
    included. *)

(** The closure variables as [trigger] initialises them. *)
Definition startWatch (p : Position) : Watch :=
  {| anchor := p; canceled := false; bound := true |}.

Definition disposed (wt : Watch) : Watch :=
  {| anchor := anchor wt; canceled := canceled wt; bound := false |}.

(** The listener that [trigger] installs on [onDidChangeModelRawContent]:
    each branch assigns [canceled]; an event of no known type leaves it. *)
Definition listener (wt : Watch) (e : IModelContentChangedEvent) : Watch :=
  let canceled' :=
    match e with
    | ModelRawContentChangedFlush => true
    | ModelRawContentChangedLineChanged changedLine =>
        (changedLine <=? lineNumber (anchor wt))%Z
    | ModelRawContentChangedLinesInserted insertLine _ =>
        (insertLine <=? lineNumber (anchor wt))%Z
    | ModelRawContentChangedLinesDeleted _ deleteLine2 =>
        (deleteLine2 <=? lineNumber (anchor wt))%Z
    | ModelRawContentChangedOther => canceled wt
    end in
  let wt' := {| anchor := anchor wt; canceled := canceled'; bound := bound wt |} in
  if canceled' then disposed wt' else wt'.

(** The emitter calls a listener as long as it has not been disposed. *)
Definition deliver (wt : Watch) (e : IModelContentChangedEvent) : Watch :=
  if bound wt then listener wt e else wt.

Definition deliver_all (es : list IModelContentChangedEvent) (wt : Watch) : Watch :=
  fold_left deliver es wt.

(** The model changes: every listener still bound is called. *)
Definition emit (e : IModelContentChangedEvent) (w : World) : World :=
  set_watches (fmap (fun wt => deliver wt e)) w.

Definition emit_all (es : list IModelContentChangedEvent) (w : World) : World :=
  fold_left (fun w e => emit e w) es w.

(** ** The editor's interface *)

Definition getModel : Eff (option Model) := gets (fun w => model (editor w)).
Definition getSelections : Eff (list Selection) := gets (fun w => selections (editor w)).
Definition getSelection : Eff Selection := gets (fun w => selection (editor w)).
Definition getPosition : Eff Position := gets (fun w => position (editor w)).

(** A member access on the model: a [TypeError] when there is none. *)
Definition deref (m : option Model) : Eff Model :=
  match m with
  | Some m' => mret m'
  | None => throw "TypeError"
  end.

(** [editor.executeCommand(id, command)]: the command is handed to the
    editor, which applies it; the model then announces the changes of its
    edits to the listeners that are still bound. *)
Definition executeCommand (id : string) (c : EditOperationsCommand) : Eff unit :=
  call (CallExecuteCommand id c) ;;
  modify (fun w =>
    emit_all (commandChanges (host w) c (editor w))
      (set_editor (commandEffect (host w) c) w)).

Definition viewStateOf (e : Editor) : IEditorViewState :=
  {| vsScrollTop := scrollTop e; vsSelections := selections e;
     vsSelection := selection e; vsPosition := position e |}.

(** Modelled from the spec: [saveViewState] yields the snapshot of scroll
    and selection, an object, so that [if (state)] in [FormatAction.apply]
    tells whether the state was saved. *)
Definition saveViewState : Eff IEditorViewState :=
  call CallSaveViewState ;;
  gets (fun w => viewStateOf (editor w)).

Definition putViewState (s : IEditorViewState) (e : Editor) : Editor :=
  {| formatOnType := formatOnType e; model := model e;
     selections := vsSelections s; selection := vsSelection s;
     position := vsPosition s; scrollTop := vsScrollTop s;
     focused := focused e |}.

Definition restoreViewState (s : IEditorViewState) : Eff unit :=
  call (CallRestoreViewState s) ;;
  modify (set_editor (putViewState s)).

Definition focus : Eff unit :=
  call CallFocus ;;
  modify (set_editor (fun e =>
    {| formatOnType := formatOnType e; model := model e;
       selections := selections e; selection := selection e;
       position := position e; scrollTop := scrollTop e; focused := true |})).

Definition Position_eqb (p q : Position) : bool :=
  (lineNumber p =? lineNumber q)%Z && (column p =? column q)%Z.

Definition versionId_eqb (a b : option (string * Z)) : bool :=
  match a, b with
  | Some (u, v), Some (u', v') => String.eqb u u' && (v =? v')%Z
  | None, None => true
  | _, _ => false
  end.

(** Modelled from the spec: what a capture with the flags [Value] and
    [Position] records of an editor. *)
Definition stateOf (e : Editor) : CodeEditorState :=
  {| csModelVersionId := (fun m => (uri m, versionId m)) <$> model e;
     csPosition := position e |}.

Definition captureState : Eff CodeEditorState :=
  s ← gets (fun w => stateOf (editor w));
  call (CallCaptureState s) ;;
  mret s.

(** [state.validate(editor)]. *)
Definition validate (s : CodeEditorState) : Eff bool :=
  gets (fun w =>
    let now := stateOf (editor w) in
    versionId_eqb (csModelVersionId s) (csModelVersionId now)
    && Position_eqb (csPosition s) (csPosition now)).

(** [arrays.isFalsyOrEmpty], and [!result || result.length === 0]. *)
Definition isFalsyOrEmpty {A : Type} (l : option (list A)) : bool :=
  match l with
  | Some (_ :: _) => false
  | _ => true
  end.

(** ** FormatOnType *)

Module FormatOnType.

Definition ID : string := "editor.contrib.autoFormat".

Definition getId : string := ID.

(** [editor.onDidChangeModelRawContent(listener)]: the new watch is named by
    its index, which is what [unbind] holds. *)
Definition onDidChangeModelRawContent (p : Position) : Eff nat :=
  unbind ← gets (fun w => length (watches w));
  modify (set_watches (fun l => l ++ [startWatch p])) ;;
  mret unbind.

Definition unbind_dispose (unbind : nat) : Eff unit :=
  modify (set_watches (alter disposed unbind)).

(** Reading the closure variable [canceled].  The callbacks of a request
    hold the index of the watch that [trigger] installed for it; an index
    that names no watch has no counterpart in the code. *)
Definition readCanceled (unbind : nat) : Eff bool :=
  wt ← gets (fun w => watches w !! unbind);
  match wt with
  | Some wt' => mret (canceled wt')
  | None => throw "ReferenceError"
  end.

Definition disposeCallOnModel : Eff unit := modify (set_callOnModel (fun _ => [])).

Definition addTypingListener (ch : string) : Eff unit :=
  modify (set_callOnModel (fun l => l ++ [ch])).

Definition update : Eff unit :=
  (* clean up *)
  disposeCallOnModel ;;
  (* we are disabled *)
  enabled ← gets (fun w => formatOnType (editor w));
  if negb enabled then mret tt else
  (* no model *)
  model ← getModel;
  match model with
  | None => mret tt
  | Some model =>
      (* no support *)
      providers ← gets (fun w => ordered (host w) model);
      match providers with
      | [] => mret tt
      | support :: _ =>
          match autoFormatTriggerCharacters support with
          | None => mret tt
          | Some chars =>
              (* register typing listeners that will trigger the format *)
              forEach addTypingListener chars
          end
      end
  end.

(** The synchronous part of [trigger]: up to the call of
    [getOnTypeFormattingEdits], whose promise gets [onFulfilled] and
    [onRejected] of the watch just installed. *)
Definition trigger (ch : string) : Eff unit :=
  sels ← getSelections;
  if (1 <? length sels)%nat then mret tt else
  model ← getModel;
  position ← getPosition;
  _ ← onDidChangeModelRawContent position;
  m ← deref model;
  let modelOpts := getOptions m in
  call (CallOnTypeFormattingEdits m position ch
          {| tabSize := tabSize modelOpts; insertSpaces := insertSpaces modelOpts |}).

(** The first callback of [then]. *)
Definition onFulfilled (unbind : nat) (edits : option (list ISingleEditOperation)) : Eff unit :=
  unbind_dispose unbind ;;
  canceled ← readCanceled unbind;
  if canceled || isFalsyOrEmpty edits then mret tt else
  sel ← getSelection;
  executeCommand getId {| edits := default [] edits; initialSelection := sel |}.

(** The second callback of [then]. *)
Definition onRejected (unbind : nat) (err : string) : Eff unit :=
  unbind_dispose unbind ;;
  throw err.

(** A character is typed: the typing listeners registered for it run. *)
Definition typed (ch : string) : Eff unit :=
  listeners ← gets (fun w => filter (fun c => c = ch) (callOnModel w));
  forEach trigger listeners.

End FormatOnType.

(** ** FormatAction *)

Module FormatAction.

Definition id : string := "editor.action.format".

(** What the callback of [formattingPromise.then] closes over. *)
Record Pending := {
  state : CodeEditorState;
  editorSelection : Selection
}.

(** Modelled from the spec: the request functions of [../common/format] call
    the provider and yield a promise when a provider applies to the mode, and
    yield none otherwise. *)
Definition getDocumentFormattingEdits (m : Model) (o : FormattingOptions) : Eff bool :=
  has ← gets (fun w => documentFormatting (host w) m);
  if (has : bool) then call (CallDocumentFormattingEdits m o) ;; mret true else mret false.

Definition getDocumentRangeFormattingEdits (m : Model) (r : Selection) (o : FormattingOptions) : Eff bool :=
  has ← gets (fun w => rangeFormatting (host w) m);
  if (has : bool) then call (CallDocumentRangeFormattingEdits m r o) ;; mret true else mret false.

Definition apply (editorSelection : Selection) (value : list ISingleEditOperation) : Eff unit :=
  state ← (if isEmpty editorSelection
           then Some <$> saveViewState
           else mret None : Eff (option IEditorViewState));
  let command := {| edits := value; initialSelection := editorSelection |} in
  executeCommand id command ;;
  match state with
  | Some s => restoreViewState s
  | None => mret tt
  end.

(** The synchronous part of [run]: [None] stands for [TPromise.as(void 0)],
    [Some p] for the promise whose [then] callback closes over [p]. *)
Definition run : Eff (option Pending) :=
  model ← getModel;
  editorSelection ← getSelection;
  m ← deref model;
  let modelOpts := getOptions m in
  let options := {| tabSize := tabSize modelOpts; insertSpaces := insertSpaces modelOpts |} in
  formattingPromise ←
    (if isEmpty editorSelection
     then getDocumentFormattingEdits m options
     else getDocumentRangeFormattingEdits m editorSelection options);
  if negb formattingPromise then mret None else
  (* Capture the state of the editor *)
  state ← captureState;
  mret (Some {| state := state; editorSelection := editorSelection |}).

(** Receive formatted value from worker. *)
Definition run_then (p : Pending) (result : option (list ISingleEditOperation)) : Eff unit :=
  valid ← validate (state p);
  if negb valid then mret tt else
  if isFalsyOrEmpty result then mret tt else
  apply (editorSelection p) (default [] result) ;;
  focus.

End FormatAction.

(** ** The life of the contribution *)

Module Contribution.

(** The four events whose subscriptions the constructor of [FormatOnType]
    pushes on [callOnDispose]; the callback of each is [update]. *)
Inductive Subscription :=
| onDidChangeConfiguration
| onDidChangeModel
| onDidChangeModelMode
| onDidChange.   (* of OnTypeFormattingEditProviderRegistry *)

#[global] Instance Subscription_eq_dec : EqDecision Subscription.
Proof. solve_decision. Defined.

(** The fields of a [FormatOnType]: [callOnModel] is the one of the world. *)
Record FormatOnType := {
  callOnDispose : list Subscription;
  world : World
}.

(** [new FormatOnType(editor)]: both arrays start empty, then the four
    subscriptions are pushed.  [update] is not called. *)
Definition constructor (w : World) : FormatOnType :=
  {| callOnDispose := [onDidChangeConfiguration; onDidChangeModel;
                       onDidChangeModelMode; onDidChange];
     world := set_callOnModel (fun _ => []) w |}.

(** [dispose()]: both arrays are disposed. *)
Definition dispose (c : FormatOnType) : FormatOnType :=
  {| callOnDispose := [];
     world := set_callOnModel (fun _ => []) (world c) |}.

(** An event fires: [update] runs if the subscription is still held. *)
Definition fire (ev : Subscription) (c : FormatOnType) : FormatOnType :=
  if decide (ev ∈ callOnDispose c)
  then {| callOnDispose := callOnDispose c;
          world := (FormatOnType.update (world c)).2 |}
  else c.

Definition set_host (f : Host -> Host) (w : World) : World :=
  {| host := f (host w); editor := editor w; callOnModel := callOnModel w;
     watches := watches w; calls := calls w |}.

(** Modelled from the spec: configuration, model, mode and registry change
    outside this code, and each change is followed by the event that
    announces it.  A step is such a change with its event. *)
Record HostStep := {
  newEditor : Editor -> Editor;
  newHost : Host -> Host;
  announced : Subscription
}.

Definition step (c : FormatOnType) (s : HostStep) : FormatOnType :=
  fire (announced s)
    {| callOnDispose := callOnDispose c;
       world := set_host (newHost s) (set_editor (newEditor s) (world c)) |}.

Definition steps (ss : list HostStep) (c : FormatOnType) : FormatOnType :=
  fold_left step ss c.

End Contribution.

(** ** Sample editors *)

Module Samples.

Definition file : Model :=
  {| uri := "file:///src/a.ts"; versionId := 7;
     getOptions := {| tabSize := 4; insertSpaces := true |} |}.

Definition caret (l c : Z) : Selection :=
  {| startLineNumber := l; startColumn := c; endLineNumber := l; endColumn := c |}.

Definition span (l1 c1 l2 c2 : Z) : Selection :=
  {| startLineNumber := l1; startColumn := c1; endLineNumber := l2; endColumn := c2 |}.

Definition indent : ISingleEditOperation :=
  {| range := caret 6 1; text := "  " |}.

(** A command that changes the document, moves the selection to where its
    edits end and scrolls. *)
Definition reformat (c : EditOperationsCommand) (e : Editor) : Editor :=
  {| formatOnType := formatOnType e;
     model := (fun m => {| uri := uri m; versionId := versionId m + 1;
                           getOptions := getOptions m |}) <$> model e;
     selections := [caret 1 1]; selection := caret 1 1;
     position := {| lineNumber := 1; column := 1 |};
     scrollTop := 0; focused := focused e |}.

(** The changes the model announces for it: each edit changes the line
    where its range starts. *)
Definition changedLines (c : EditOperationsCommand) (e : Editor)
  : list IModelContentChangedEvent :=
  map (fun op => ModelRawContentChangedLineChanged (startLineNumber (range op))) (edits c).

(** The first provider declares no trigger characters, the second does. *)
Definition registry : Host :=
  {| ordered := fun _ =>
       [ {| autoFormatTriggerCharacters := None |};
         {| autoFormatTriggerCharacters := Some ["}"; ";"] |} ];
     documentFormatting := fun _ => true;
     rangeFormatting := fun _ => true;
     commandEffect := reformat;
     commandChanges := changedLines |}.

Definition editorWith (sels : list Selection) (sel : Selection) : Editor :=
  {| formatOnType := true; model := Some file; selections := sels; selection := sel;
     position := {| lineNumber := endLineNumber sel; column := endColumn sel |};
     scrollTop := 120; focused := false |}.

Definition world (e : Editor) : World :=
  {| host := registry; editor := e; callOnModel := []; watches := []; calls := [] |}.

(** One caret at line 5. *)
Definition oneCaret : World := world (editorWith [caret 5 8] (caret 5 8)).

(** Two carets. *)
Definition twoCarets : World := world (editorWith [caret 5 8; caret 9 2] (caret 5 8)).

(** A selection of several characters. *)
Definition selected : World := world (editorWith [span 5 2 5 8] (span 5 2 5 8)).

(** The selection is replaced; the cursor stays where it is. *)
Definition select (sel : Selection) (w : World) : World :=
  set_editor (fun e =>
    {| formatOnType := formatOnType e; model := model e;
       selections := [sel]; selection := sel; position := position e;
       scrollTop := scrollTop e; focused := focused e |}) w.

(** The watch of the specification's example: anchored at line 5. *)
Definition line5 : Position := {| lineNumber := 5; column := 8 |}.

(** A request started with one caret at line 5; then line 6 changes and the
    user extends the selection by one character, the cursor staying put. *)
Definition requested : World := (FormatOnType.trigger "}" oneCaret).2.

Definition editedBelow : World :=
  select (span 5 8 5 9)
    (emit (ModelRawContentChangedLineChanged 6) requested).

Definition editedAbove : World :=
  emit (ModelRawContentChangedLinesInserted 3 3) requested.

(** Another edit reaches the document: its content version moves on. *)
Definition otherEdit (w : World) : World :=
  set_editor (fun e =>
    {| formatOnType := formatOnType e;
       model := (fun m => {| uri := uri m; versionId := versionId m + 1;
                             getOptions := getOptions m |}) <$> model e;
       selections := selections e; selection := selection e; position := position e;
       scrollTop := scrollTop e; focused := focused e |}) w.

(** What [run] leaves pending with one caret, and with a selection. *)
Definition pendingCaret : FormatAction.Pending :=
  {| FormatAction.state := stateOf (editor oneCaret);
     FormatAction.editorSelection := caret 5 8 |}.

Definition pendingSelected : FormatAction.Pending :=
  {| FormatAction.state := stateOf (editor selected);
     FormatAction.editorSelection := span 5 2 5 8 |}.

(** While the request is pending the user shrinks the selection; the cursor
    stays at its end and the document is not edited. *)
Definition reselected : World := select (span 5 4 5 8) (FormatAction.run selected).2.

End Samples.

(** ** Notions of the specification *)

Module Notions.

(** A notification invalidates the watch anchored at line [L]. *)
Definition invalidating (L : Z) (e : IModelContentChangedEvent) : Prop :=
  match e with
  | ModelRawContentChangedFlush => True
  | ModelRawContentChangedLineChanged changed => (changed <= L)%Z
  | ModelRawContentChangedLinesInserted fromLine _ => (fromLine <= L)%Z
  | ModelRawContentChangedLinesDeleted _ toLine => (toLine <= L)%Z
  | ModelRawContentChangedOther => False
  end.

(** The lines a notification affects; a flush affects every line. *)
Definition affects (e : IModelContentChangedEvent) (l : Z) : Prop :=
  match e with
  | ModelRawContentChangedFlush => True
  | ModelRawContentChangedLineChanged changed => l = changed
  | ModelRawContentChangedLinesInserted fromLine toLine => (fromLine <= l <= toLine)%Z
  | ModelRawContentChangedLinesDeleted fromLine toLine => (fromLine <= l <= toLine)%Z
  | ModelRawContentChangedOther => False
  end.

(** A range of lines runs from its first to its last line. *)
Definition wellFormed (e : IModelContentChangedEvent) : Prop :=
  match e with
  | ModelRawContentChangedLinesInserted fromLine toLine => (fromLine <= toLine)%Z
  | ModelRawContentChangedLinesDeleted fromLine toLine => (fromLine <= toLine)%Z
  | _ => True
  end.

(** Every line the notification affects is strictly greater than [L]. *)
Definition strictlyBelow (L : Z) (e : IModelContentChangedEvent) : Prop :=
  wellFormed e /\ forall l, affects e l -> (L < l)%Z.

(** Once [canceled], a watch is no longer bound. *)
Definition latched (wt : Watch) : Prop :=
  canceled wt = true -> bound wt = false.

(** The provider declares no trigger characters: none at all, or an empty
    array of them. *)
Definition declaresNoTriggerCharacters (p : OnTypeFormattingEditProvider) : Prop :=
  match autoFormatTriggerCharacters p with
  | None => True
  | Some chars => chars = []
  end.

(** [trigger] has called the on-type request function. *)
Definition startsRequest (ch : string) (w : World) : Prop :=
  exists m p o, calls (FormatOnType.trigger ch w).2 = calls w ++ [CallOnTypeFormattingEdits m p ch o].

Definition isFormatRequest (c : Call) : bool :=
  match c with
  | CallDocumentFormattingEdits _ _ => true
  | CallDocumentRangeFormattingEdits _ _ _ => true
  | _ => false
  end.

Definition isCapture (c : Call) : bool :=
  match c with
  | CallCaptureState _ => true
  | _ => false
  end.

(** Some call satisfying [P] is made before some call satisfying [Q]. *)
Fixpoint precedes (P Q : Call -> bool) (l : list Call) : bool :=
  match l with
  | [] => false
  | c :: l' => (P c && existsb Q l') || precedes P Q l'
  end.

(** The request [run] makes for model [m] when the selection is [sel]. *)
Definition requestOf (m : Model) (sel : Selection) : Call :=
  let options := {| tabSize := tabSize (getOptions m);
                    insertSpaces := insertSpaces (getOptions m) |} in
  if isEmpty sel then CallDocumentFormattingEdits m options
  else CallDocumentRangeFormattingEdits m sel options.

(** The token validates against the editor of [w]. *)
Definition validates (p : FormatAction.Pending) (w : World) : bool :=
  versionId_eqb (csModelVersionId (FormatAction.state p)) (csModelVersionId (stateOf (editor w)))
  && Position_eqb (csPosition (FormatAction.state p)) (csPosition (stateOf (editor w))).

End Notions.

(** ** Further notions and samples *)

Module Scenarios.
Import Samples.

(** The trigger characters in force in a world: those of the first provider
    for the attached model, when format-on-type is enabled. *)
Definition triggerCharacters (w : World) : list string :=
  if formatOnType (editor w) then
    match model (editor w) with
    | Some m =>
        match ordered (host w) m with
        | support :: _ => default [] (autoFormatTriggerCharacters support)
        | [] => []
        end
    | None => []
    end
  else [].

(** The on-type request of [trigger] in world [w]. *)
Definition onTypeRequest (m : Model) (ch : string) (w : World) : Call :=
  CallOnTypeFormattingEdits m (position (editor w)) ch
    {| tabSize := tabSize (getOptions m); insertSpaces := insertSpaces (getOptions m) |}.

(** The command of the manual format action for the result of a request. *)
Definition formatCommand (p : FormatAction.Pending)
    (result : option (list ISingleEditOperation)) : EditOperationsCommand :=
  {| edits := default [] result; initialSelection := FormatAction.editorSelection p |}.

(** The command of the on-type path for [edits] in world [w]. *)
Definition onTypeCommand (edits : option (list ISingleEditOperation)) (w : World) : Call :=
  CallExecuteCommand FormatOnType.ID
    {| edits := default [] edits; initialSelection := selection (editor w) |}.

(** A deletion of lines that takes the anchor line [L] and lines after it. *)
Definition deletesAcross (L : Z) (e : IModelContentChangedEvent) : Prop :=
  exists fromLine toLine,
    e = ModelRawContentChangedLinesDeleted fromLine toLine
    /\ (fromLine <= L < toLine)%Z.

(** A registry whose first provider declares two characters. *)
Definition braces : Host :=
  {| ordered := fun _ => [ {| autoFormatTriggerCharacters := Some ["}"; ";"] |} ];
     documentFormatting := fun _ => true;
     rangeFormatting := fun _ => true;
     commandEffect := reformat;
     commandChanges := changedLines |}.

(** A world with two listeners left from an earlier evaluation. *)
Definition listening : World :=
  {| host := braces; editor := editorWith [caret 5 8] (caret 5 8);
     callOnModel := ["}"; ";"]; watches := []; calls := [] |}.

(** The configuration switches format-on-type off. *)
Definition switchOff (e : Editor) : Editor :=
  {| formatOnType := false; model := model e; selections := selections e;
     selection := selection e; position := position e; scrollTop := scrollTop e;
     focused := focused e |}.

Definition configurationOff : Contribution.HostStep :=
  {| Contribution.newEditor := switchOff; Contribution.newHost := fun h => h;
     Contribution.announced := Contribution.onDidChangeConfiguration |}.

(** The provider with the two characters is registered. *)
Definition registered : Contribution.HostStep :=
  {| Contribution.newEditor := fun e => e; Contribution.newHost := fun _ => braces;
     Contribution.announced := Contribution.onDidChange |}.



(** The result arrives while the user has scrolled. *)
Definition scrolled (w : World) : World :=
  set_editor (fun e =>
    {| formatOnType := formatOnType e; model := model e; selections := selections e;
       selection := selection e; position := position e; scrollTop := 480;
       focused := focused e |}) w.

End Scenarios.

(** Unfolds the sequencing of computations and the editor's interface. *)
Ltac eff :=
  cbv beta iota zeta delta
    [mbind mret Eff_bind Eff_ret Eff_fmap gets modify call throw
     getSelections getSelection getModel getPosition deref
     executeCommand saveViewState restoreViewState focus captureState validate] in *.

(** * Properties *)

(** ** The watch of an on-type request *)

Module WatchFacts.
Import FormatOnType Notions Samples.

Lemma deliver_unbound wt e : bound wt = false -> deliver wt e = wt.
Proof. unfold deliver. intros ->. reflexivity. Qed.

Lemma deliver_all_unbound es wt : bound wt = false -> deliver_all es wt = wt.
Proof.
  unfold deliver_all. induction es as [|e es IH]; intros Hb; cbn; [reflexivity|].
  rewrite deliver_unbound by exact Hb. apply IH, Hb.
Qed.

Lemma deliver_all_app es1 es2 wt :
  deliver_all (es1 ++ es2) wt = deliver_all es2 (deliver_all es1 wt).
Proof. unfold deliver_all. apply fold_left_app. Qed.

Lemma deliver_anchor wt e : anchor (deliver wt e) = anchor wt.
Proof.
  unfold deliver, listener. destruct (bound wt); [|reflexivity].
  destruct e; cbn; repeat case_match; reflexivity.
Qed.

Lemma deliver_latched wt e : latched (deliver wt e).
Proof.
  unfold latched, deliver, listener. destruct wt as [a c b]. cbn.
  destruct b; cbn.
  - destruct e; cbn; repeat case_match; cbn; congruence.
  - (* a watch that is not bound is not called *)
    intros _. reflexivity.
Qed.

(** What the listener does to a watch that is bound and not canceled. *)
Lemma deliver_live a e :
  (invalidating (lineNumber a) e /\
   deliver (startWatch a) e = {| anchor := a; canceled := true; bound := false |})
  \/ (~ invalidating (lineNumber a) e /\ deliver (startWatch a) e = startWatch a).
Proof.
  unfold deliver, listener, startWatch, disposed. cbn.
  destruct e as [|changed|fromLine toLine|fromLine toLine|]; cbn.
  - left. split; [exact I|reflexivity].
  - destruct (Z.leb_spec changed (lineNumber a)); [left|right]; split; try reflexivity; lia.
  - destruct (Z.leb_spec fromLine (lineNumber a)); [left|right]; split; try reflexivity; lia.
  - destruct (Z.leb_spec toLine (lineNumber a)); [left|right]; split; try reflexivity; lia.
  - right. split; [tauto|reflexivity].
Qed.

Lemma deliver_all_start a es :
  canceled (deliver_all es (startWatch a)) = true <-> Exists (invalidating (lineNumber a)) es.
Proof.
  induction es as [|e es IH].
  - cbn. split; [discriminate|]. intros H. inversion H.
  - change (deliver_all (e :: es) (startWatch a))
      with (deliver_all es (deliver (startWatch a) e)).
    destruct (deliver_live a e) as [[Hinv ->]|[Hno ->]].
    + rewrite deliver_all_unbound by reflexivity. cbn.
      split; [intros _; apply Exists_cons_hd, Hinv | reflexivity].
    + rewrite IH. split.
      * intros H. apply Exists_cons_tl, H.
      * intros H. inversion H; subst; [contradiction|assumption].
Qed.

Lemma strictlyBelow_not_invalidating L e : strictlyBelow L e -> ~ invalidating L e.
Proof.
  unfold strictlyBelow. intros [Hwf Hall] Hinv.
  destruct e as [|changed|fromLine toLine|fromLine toLine|]; cbn in *.
  - specialize (Hall L I). lia.
  - specialize (Hall changed eq_refl). lia.
  - specialize (Hall fromLine ltac:(lia)). lia.
  - specialize (Hall toLine ltac:(lia)). lia.
  - exact Hinv.
Qed.

(** Watches in the world evolve one by one, each by [deliver]. *)
Lemma emit_all_watches es w :
  watches (emit_all es w) = deliver_all es <$> watches w.
Proof.
  unfold emit_all, deliver_all. revert w.
  induction es as [|e es IH]; intros w; cbn.
  - symmetry. apply list_fmap_id.
  - rewrite IH. cbn. rewrite <- list_fmap_compose. reflexivity.
Qed.

(** Notifications reach the watches and nothing else. *)
Lemma emit_all_editor es w : editor (emit_all es w) = editor w.
Proof.
  unfold emit_all. revert w. induction es as [|e es IH]; intros w; [reflexivity|].
  cbn [fold_left]. rewrite IH. reflexivity.
Qed.

Lemma emit_all_calls es w : calls (emit_all es w) = calls w.
Proof.
  unfold emit_all. revert w. induction es as [|e es IH]; intros w; [reflexivity|].
  cbn [fold_left]. rewrite IH. reflexivity.
Qed.

Lemma emit_all_lookup es w unbind :
  watches (emit_all es w) !! unbind = deliver_all es <$> (watches w !! unbind).
Proof. rewrite emit_all_watches. apply list_lookup_fmap. Qed.

(** The listener's body alone is no latch: it assigns [canceled], and would
    reset it if it were called again. *)
Example listener_assigns :
  let wt := {| anchor := {| lineNumber := 5; column := 1 |}; canceled := true; bound := true |} in
  canceled (listener wt (ModelRawContentChangedLineChanged 6)) = false.
Proof. reflexivity. Qed.

(** C1: for every sequence of notifications delivered to the watch anchored
    at line L, the watch is canceled exactly when some notification is a
    flush, a line change at a line <= L, an insertion with fromLine <= L or a
    deletion with toLine <= L; and a sequence of notifications whose affected
    lines are all strictly greater than L leaves it not canceled. *)
Theorem watch_invalidated_iff (a : Position) (es : list IModelContentChangedEvent) :
  (canceled (deliver_all es (startWatch a)) = true
     <-> Exists (invalidating (lineNumber a)) es)
  /\ (Forall (strictlyBelow (lineNumber a)) es
      -> canceled (deliver_all es (startWatch a)) = false).
Proof.
  split; [apply deliver_all_start|].
  intros Hall. apply not_true_is_false. rewrite deliver_all_start.
  rewrite Exists_exists. intros (e & Hin & Hinv).
  rewrite Forall_forall in Hall.
  exact (strictlyBelow_not_invalidating _ _ (Hall e Hin) Hinv).
Qed.

(** C3: the flag is a latch: once a prefix of the notifications has set it,
    no continuation of the sequence resets it. *)
Theorem canceled_latch (a : Position) (es1 es2 : list IModelContentChangedEvent) :
  canceled (deliver_all es1 (startWatch a)) = true ->
  canceled (deliver_all (es1 ++ es2) (startWatch a)) = true.
Proof.
  intros Hc. rewrite deliver_all_app.
  assert (Hl : latched (deliver_all es1 (startWatch a))).
  { destruct es1 as [|e es1] using rev_ind.
    - cbn in Hc. discriminate.
    - rewrite deliver_all_app. cbn. apply deliver_latched. }
  rewrite deliver_all_unbound by exact (Hl Hc). exact Hc.
Qed.

(** An edit at line 6 does not invalidate; an edit at line 5, an insertion
    from line 3 and a deletion up to line 4 do. *)
Lemma watch_invalidated_iff_line5 :
  canceled (deliver_all [ModelRawContentChangedLineChanged 6] (startWatch line5)) = false
  /\ canceled (deliver_all [ModelRawContentChangedLineChanged 5] (startWatch line5)) = true
  /\ canceled (deliver_all [ModelRawContentChangedLineChanged 6;
                            ModelRawContentChangedLinesInserted 3 4]
                 (startWatch line5)) = true
  /\ canceled (deliver_all [ModelRawContentChangedLinesDeleted 2 4;
                            ModelRawContentChangedLineChanged 9]
                 (startWatch line5)) = true.
Proof.
  split; [|split; [|split]].
  - apply (proj2 (watch_invalidated_iff line5 _)).
    repeat constructor. cbn. intros l ->. lia.
  - apply (proj1 (watch_invalidated_iff line5 _)).
    apply Exists_cons_hd. cbn. lia.
  - apply (proj1 (watch_invalidated_iff line5 _)).
    apply Exists_cons_tl, Exists_cons_hd. cbn. lia.
  - apply (proj1 (watch_invalidated_iff line5 _)).
    apply Exists_cons_hd. cbn. lia.
Defined.

(** Invalidated by an edit at line 5, the watch stays so through edits
    below the anchor. *)
Lemma canceled_latch_line5 :
  canceled (deliver_all ([ModelRawContentChangedLineChanged 5]
                         ++ [ModelRawContentChangedLineChanged 6;
                             ModelRawContentChangedLinesInserted 9 9])
              (startWatch line5)) = true.
Proof. apply (canceled_latch line5). reflexivity. Defined.

End WatchFacts.

(** ** The on-type controller *)

Module OnTypeFacts.
Import FormatOnType Notions.

Lemma lookup_disposed unbind (l : list Watch) wt :
  l !! unbind = Some wt -> alter disposed unbind l !! unbind = Some (disposed wt).
Proof. intros H. rewrite list_lookup_alter_eq, H. reflexivity. Qed.

Lemma forEach_addTypingListener chars w :
  forEach addTypingListener chars w
  = (Returned tt, set_callOnModel (fun l => l ++ chars) w).
Proof.
  revert w. induction chars as [|ch chars IH]; intros w.
  - destruct w. unfold set_callOnModel. cbn. rewrite app_nil_r. reflexivity.
  - cbn [forEach]. unfold addTypingListener. eff. rewrite IH.
    destruct w. unfold set_callOnModel. cbn. rewrite <- app_assoc. reflexivity.
Qed.

(** The listeners that [update] leaves registered: those of the first
    provider of the ordered list, and of no other. *)
Lemma update_listeners w :
  update w =
  (Returned tt,
   set_callOnModel (fun _ =>
     if formatOnType (editor w) then
       match model (editor w) with
       | Some m =>
           match ordered (host w) m with
           | support :: _ => default [] (autoFormatTriggerCharacters support)
           | [] => []
           end
       | None => []
       end
     else []) w).
Proof.
  unfold update, disposeCallOnModel. eff.
  change (formatOnType (editor (set_callOnModel (fun _ => []) w)))
    with (formatOnType (editor w)).
  destruct (formatOnType (editor w)); cbn [negb]; [|reflexivity].
  change (model (editor (set_callOnModel (fun _ => []) w))) with (model (editor w)).
  destruct (model (editor w)) as [m|]; [|reflexivity].
  change (host (set_callOnModel (fun _ => []) w)) with (host w).
  destruct (ordered (host w) m) as [|support later]; [reflexivity|].
  destruct (autoFormatTriggerCharacters support) as [chars|]; [|reflexivity].
  rewrite forEach_addTypingListener. reflexivity.
Qed.

Lemma typed_without_listeners ch w :
  callOnModel w = [] -> typed ch w = (Returned tt, w).
Proof. unfold typed. eff. intros ->. reflexivity. Qed.

(** The watch that [trigger] installs is found under the index [unbind]
    holds, anchored at the cursor and not yet canceled. *)
Lemma trigger_installs ch w :
  (length (selections (editor w)) <= 1)%nat ->
  watches (trigger ch w).2 !! length (watches w) = Some (startWatch (position (editor w))).
Proof.
  intros Hlen. apply Nat.ltb_ge in Hlen.
  unfold trigger, onDidChangeModelRawContent. eff. rewrite Hlen.
  destruct (model (editor w)) as [m|]; cbn; apply list_lookup_middle; reflexivity.
Qed.

(** In the world, the notifications emitted while the request is pending
    cancel its watch exactly when one of them invalidates the anchor. *)
Lemma emitted_watch w unbind a es :
  watches w !! unbind = Some (startWatch a) ->
  exists wt, watches (emit_all es w) !! unbind = Some wt
    /\ (canceled wt = true <-> Exists (invalidating (lineNumber a)) es).
Proof.
  intros Hwt. exists (deliver_all es (startWatch a)).
  rewrite WatchFacts.emit_all_lookup, Hwt.
  split; [reflexivity|apply WatchFacts.deliver_all_start].
Qed.

(** What the guard of [trigger] does: it returns at once, changing nothing,
    when more than one selection is active; otherwise it installs a watch
    and, the model being attached, calls the provider. *)
Lemma trigger_guard (ch : string) (w : World) :
  ((1 < length (selections (editor w)))%nat -> trigger ch w = (Returned tt, w))
  /\ ((length (selections (editor w)) <= 1)%nat ->
      watches (trigger ch w).2 = watches w ++ [startWatch (position (editor w))]
      /\ match model (editor w) with
         | Some m =>
             (trigger ch w).1 = Returned tt
             /\ calls (trigger ch w).2 =
                calls w ++ [CallOnTypeFormattingEdits m (position (editor w)) ch
                              {| tabSize := tabSize (getOptions m);
                                 insertSpaces := insertSpaces (getOptions m) |}]
         | None =>
             (trigger ch w).1 = Thrown "TypeError"
             /\ calls (trigger ch w).2 = calls w
         end).
Proof.
  split; intros Hlen.
  - apply Nat.ltb_lt in Hlen. unfold trigger. eff. rewrite Hlen. reflexivity.
  - apply Nat.ltb_ge in Hlen. unfold trigger, onDidChangeModelRawContent. eff.
    rewrite Hlen. destruct (model (editor w)) as [m|]; cbn; auto.
Qed.

Lemma app_singleton_neq {A : Type} (l : list A) (x : A) : l ++ [x] <> l.
Proof.
  intros H. apply (f_equal length) in H. rewrite length_app in H. cbn in H. lia.
Qed.

(** C4: in an editor that reports its selections (there is at least one),
    [trigger] starts a request, installing a watch and calling the provider,
    only if exactly one selection is active; in every other case it returns
    at once, no request is made and nothing changes.  With exactly one
    selection the watch is installed and, the model being attached, the
    provider is called. *)
Theorem trigger_single_selection (ch : string) (w : World) :
  selections (editor w) <> [] ->
  (startsRequest ch w -> length (selections (editor w)) = 1%nat)
  /\ (watches (trigger ch w).2 <> watches w -> length (selections (editor w)) = 1%nat)
  /\ (length (selections (editor w)) <> 1%nat -> trigger ch w = (Returned tt, w))
  /\ (length (selections (editor w)) = 1%nat ->
      watches (trigger ch w).2 = watches w ++ [startWatch (position (editor w))]
      /\ forall m, model (editor w) = Some m ->
           (trigger ch w).1 = Returned tt
           /\ calls (trigger ch w).2 =
              calls w ++ [CallOnTypeFormattingEdits m (position (editor w)) ch
                            {| tabSize := tabSize (getOptions m);
                               insertSpaces := insertSpaces (getOptions m) |}]).
Proof.
  intros Hsome.
  destruct (trigger_guard ch w) as [Hmany Hfew].
  assert (Hpos : (0 < length (selections (editor w)))%nat).
  { destruct (selections (editor w)); [congruence|cbn; lia]. }
  assert (Hother : length (selections (editor w)) <> 1%nat ->
                   trigger ch w = (Returned tt, w)).
  { intros Hne. apply Hmany. lia. }
  split; [|split; [|split]].
  - intros (m & p & o & Hcalls).
    destruct (decide (length (selections (editor w)) = 1%nat)) as [|Hne]; [assumption|].
    rewrite (Hother Hne) in Hcalls. cbn in Hcalls.
    symmetry in Hcalls. destruct (app_singleton_neq _ _ Hcalls).
  - intros Hw.
    destruct (decide (length (selections (editor w)) = 1%nat)) as [|Hne]; [assumption|].
    rewrite (Hother Hne) in Hw. cbn in Hw. congruence.
  - exact Hother.
  - intros Hone. destruct (Hfew ltac:(lia)) as [Hwatch Hmodel].
    split; [exact Hwatch|].
    intros m Hm. rewrite Hm in Hmodel. exact Hmodel.
Qed.

(** With two carets nothing happens; with one, a watch anchored at the
    cursor is installed. *)
Lemma trigger_single_selection_samples :
  trigger "}" Samples.twoCarets = (Returned tt, Samples.twoCarets)
  /\ watches (trigger "}" Samples.oneCaret).2 = [] ++ [startWatch Samples.line5].
Proof.
  split.
  - apply (trigger_single_selection "}" Samples.twoCarets); cbn; [discriminate|lia].
  - apply (trigger_single_selection "}" Samples.oneCaret); cbn; [discriminate|lia].
Defined.

(** C5: when the request resolves with [edits], no command is executed if
    the watch was canceled or the edits are empty or absent; otherwise
    exactly one command is executed, made of the edits and of the selection
    the editor has when the callback runs. *)
Theorem onFulfilled_command (unbind : nat) (edits : option (list ISingleEditOperation))
    (w : World) (wt : Watch) :
  watches w !! unbind = Some wt ->
  (onFulfilled unbind edits w).1 = Returned tt
  /\ calls (onFulfilled unbind edits w).2 =
     calls w ++
     (if canceled wt || isFalsyOrEmpty edits then []
      else [CallExecuteCommand ID
              {| edits := default [] edits; initialSelection := selection (editor w) |}])
  /\ editor (onFulfilled unbind edits w).2 =
     (if canceled wt || isFalsyOrEmpty edits then editor w
      else commandEffect (host w)
             {| edits := default [] edits; initialSelection := selection (editor w) |}
             (editor w)).
Proof.
  intros Hwt.
  pose proof (lookup_disposed _ _ _ Hwt) as Hd.
  unfold onFulfilled, unbind_dispose, readCanceled. eff.
  cbn [watches set_watches]. rewrite Hd. cbn [canceled disposed].
  destruct (canceled wt || isFalsyOrEmpty edits); cbn.
  - rewrite app_nil_r. auto.
  - rewrite WatchFacts.emit_all_calls, WatchFacts.emit_all_editor. auto.
Qed.

(** C6: whatever the outcome of the request, its callback disposes the
    watch; on failure the error is thrown again once the watch is disposed,
    and nothing else is done. *)
Theorem resolution_disposes (unbind : nat) (w : World) (wt : Watch) :
  watches w !! unbind = Some wt ->
  (forall edits,
      exists wt', watches (onFulfilled unbind edits w).2 !! unbind = Some wt'
                  /\ bound wt' = false /\ canceled wt' = canceled wt)
  /\ (forall err,
      (onRejected unbind err w).1 = Thrown err
      /\ (exists wt', watches (onRejected unbind err w).2 !! unbind = Some wt'
                      /\ bound wt' = false /\ canceled wt' = canceled wt)
      /\ editor (onRejected unbind err w).2 = editor w
      /\ calls (onRejected unbind err w).2 = calls w).
Proof.
  intros Hwt.
  pose proof (lookup_disposed _ _ _ Hwt) as Hd.
  split.
  - intros edits. exists (disposed wt).
    unfold onFulfilled, unbind_dispose, readCanceled. eff.
    cbn [watches set_watches]. rewrite Hd. cbn [canceled disposed].
    destruct (canceled wt || isFalsyOrEmpty edits); cbn.
    + rewrite Hd. auto.
    + rewrite WatchFacts.emit_all_lookup.
      cbn [watches set_editor set_calls set_watches]. rewrite Hd. cbn [fmap option_fmap option_map].
      rewrite WatchFacts.deliver_all_unbound by reflexivity. auto.
  - intros err. unfold onRejected, unbind_dispose. eff. cbn.
    repeat split; try reflexivity.
    exists (disposed wt). rewrite Hd. auto.
Qed.

(** C9: when the first provider of the ordered list declares no trigger
    characters, [update] registers no typing listener, whatever the later
    providers declare, and typing a character starts nothing. *)
Theorem update_first_provider_only (w : World) (m : Model)
    (support : OnTypeFormattingEditProvider) (later : list OnTypeFormattingEditProvider) :
  model (editor w) = Some m ->
  ordered (host w) m = support :: later ->
  declaresNoTriggerCharacters support ->
  callOnModel (update w).2 = []
  /\ forall ch, typed ch (update w).2 = (Returned tt, (update w).2).
Proof.
  intros Hm Hord Hnone.
  assert (Hno : callOnModel (update w).2 = []).
  { rewrite update_listeners. cbn. rewrite Hm, Hord.
    unfold declaresNoTriggerCharacters in Hnone.
    destruct (formatOnType (editor w)); [|reflexivity].
    destruct (autoFormatTriggerCharacters support); cbn; [exact Hnone|reflexivity]. }
  split; [exact Hno|].
  intros ch. apply typed_without_listeners, Hno.
Qed.

(** The command receives the selection of the moment the request resolves;
    after an insertion above the anchor no command is executed. *)
Lemma onFulfilled_command_samples :
  calls (onFulfilled 0 (Some [Samples.indent]) Samples.editedBelow).2 =
    calls Samples.editedBelow ++
    [CallExecuteCommand ID
       {| edits := [Samples.indent]; initialSelection := Samples.span 5 8 5 9 |}]
  /\ calls (onFulfilled 0 (Some [Samples.indent]) Samples.editedAbove).2 = calls Samples.editedAbove ++ [].
Proof.
  split.
  - exact (proj1 (proj2 (onFulfilled_command 0 (Some [Samples.indent]) Samples.editedBelow
                           (startWatch Samples.line5) eq_refl))).
  - exact (proj1 (proj2 (onFulfilled_command 0 (Some [Samples.indent]) Samples.editedAbove
                           {| anchor := Samples.line5; canceled := true; bound := false |}
                           eq_refl))).
Defined.

(** A failing request: the error comes back out and the watch is disposed. *)
Lemma resolution_disposes_sample :
  (onRejected 0 "provider failed" Samples.requested).1 = Thrown "provider failed"
  /\ (exists wt', watches (onRejected 0 "provider failed" Samples.requested).2 !! 0%nat = Some wt'
                  /\ bound wt' = false /\ canceled wt' = false)
  /\ editor (onRejected 0 "provider failed" Samples.requested).2 = editor Samples.requested
  /\ calls (onRejected 0 "provider failed" Samples.requested).2 = calls Samples.requested.
Proof.
  exact (proj2 (resolution_disposes 0 Samples.requested (startWatch Samples.line5) eq_refl)
           "provider failed").
Defined.

(** The registry of the samples: the first provider declares nothing, the
    second declares two characters; no listener is registered. *)
Lemma update_first_provider_only_sample :
  callOnModel (update Samples.oneCaret).2 = []
  /\ forall ch, typed ch (update Samples.oneCaret).2 = (Returned tt, (update Samples.oneCaret).2).
Proof.
  apply (update_first_provider_only Samples.oneCaret Samples.file
           {| autoFormatTriggerCharacters := None |}
           [ {| autoFormatTriggerCharacters := Some ["}"; ";"] |} ]).
  - reflexivity.
  - reflexivity.
  - exact I.
Defined.

End OnTypeFacts.

(** ** The manual format action *)

Module ActionFacts.
Import FormatAction Notions.

Lemma validate_validates p w : validate (state p) w = (Returned (validates p w), w).
Proof. reflexivity. Qed.

(** What [run] leaves behind when it returns a pending promise. *)
Lemma run_pending w p w' :
  run w = (Returned (Some p), w') ->
  exists m, model (editor w) = Some m
    /\ p = {| state := stateOf (editor w); editorSelection := selection (editor w) |}
    /\ calls w' = calls w ++ [requestOf m (selection (editor w));
                              CallCaptureState (stateOf (editor w))]
    /\ editor w' = editor w
    /\ host w' = host w.
Proof.
  unfold run, getDocumentFormattingEdits, getDocumentRangeFormattingEdits, requestOf. eff.
  destruct (model (editor w)) as [m|]; [|discriminate].
  intros H. exists m. split; [reflexivity|].
  destruct (isEmpty (selection (editor w)));
    [destruct (documentFormatting (host w) m) | destruct (rangeFormatting (host w) m)];
    cbn in H; try discriminate;
    injection H as <- <-; cbn; rewrite <- app_assoc; auto.
Qed.

(** When [run] returns no promise, or throws, nothing was called. *)
Lemma run_no_promise w :
  match run w with
  | (Returned (Some _), _) => True
  | (_, w') => w' = w
  end.
Proof.
  unfold run, getDocumentFormattingEdits, getDocumentRangeFormattingEdits. eff.
  destruct (model (editor w)) as [m|]; [|reflexivity].
  destruct (isEmpty (selection (editor w)));
    [destruct (documentFormatting (host w) m) | destruct (rangeFormatting (host w) m)];
    cbn; auto.
Qed.

(** The steps of [apply]. *)
Lemma apply_steps sel value w :
  apply sel value w =
  (Returned tt,
   let c := {| edits := value; initialSelection := sel |} in
   if isEmpty sel
   then set_editor (putViewState (viewStateOf (editor w)))
          (set_calls (fun l => l ++ [CallRestoreViewState (viewStateOf (editor w))])
             (emit_all (commandChanges (host w) c (editor w))
                (set_editor (commandEffect (host w) c)
                   (set_calls (fun l => l ++ [CallExecuteCommand id c])
                      (set_calls (fun l => l ++ [CallSaveViewState]) w)))))
   else emit_all (commandChanges (host w) c (editor w))
          (set_editor (commandEffect (host w) c)
             (set_calls (fun l => l ++ [CallExecuteCommand id c]) w))).
Proof.
  unfold apply. eff. destruct (isEmpty sel); reflexivity.
Qed.

Lemma viewStateOf_putViewState s e : viewStateOf (putViewState s e) = s.
Proof. destruct s. reflexivity. Qed.

(** C2, as the code has it: [run] first calls the request function of the
    mode the selection chooses and then captures the state token, which
    records the content version and cursor position the editor has at that
    moment; when the request function yields no promise, no token is
    captured at all. *)
Theorem run_captures_after_request (w : World) :
  match run w with
  | (Returned (Some p), w') =>
      exists m, model (editor w) = Some m
        /\ calls w' = calls w ++ [requestOf m (selection (editor w));
                                  CallCaptureState (state p)]
        /\ state p = stateOf (editor w)
  | (_, w') => calls w' = calls w
  end.
Proof.
  pose proof (run_pending w) as Hp. pose proof (run_no_promise w) as Hn.
  destruct (run w) as [[[p|]|err] w'].
  - destruct (Hp p w' eq_refl) as (m & Hm & -> & Hc & _).
    exists m. cbn. auto.
  - rewrite Hn. reflexivity.
  - rewrite Hn. reflexivity.
Qed.

(** In the calls of [run] no capture of the state precedes the request: the
    request comes first. *)
Lemma run_requests_before_capture :
  precedes isCapture isFormatRequest (calls (run Samples.oneCaret).2) = false
  /\ precedes isFormatRequest isCapture (calls (run Samples.oneCaret).2) = true.
Proof. split; reflexivity. Qed.

(** C7: when the token no longer validates, or the result is empty or
    absent, the callback of the promise returns normally and leaves
    everything as it is. *)
Theorem run_then_abandons (p : Pending) (result : option (list ISingleEditOperation))
    (w : World) :
  validates p w = false \/ isFalsyOrEmpty result = true ->
  run_then p result w = (Returned tt, w).
Proof.
  intros H. unfold run_then. unfold mbind, Eff_bind.
  rewrite validate_validates.
  destruct (validates p w); cbn [negb]; [|reflexivity].
  destruct H as [H|H]; [discriminate|]. rewrite H. reflexivity.
Qed.

(** C8: [apply] saves the view state before the command and restores it
    after the command exactly when the selection it is given is empty; with
    a selection that is not empty it only executes the command. *)
Theorem apply_view_state (sel : Selection) (value : list ISingleEditOperation) (w : World) :
  (apply sel value w).1 = Returned tt
  /\ calls (apply sel value w).2 =
     calls w ++
     (if isEmpty sel
      then [CallSaveViewState;
            CallExecuteCommand id {| edits := value; initialSelection := sel |};
            CallRestoreViewState (viewStateOf (editor w))]
      else [CallExecuteCommand id {| edits := value; initialSelection := sel |}])
  /\ editor (apply sel value w).2 =
     (if isEmpty sel
      then putViewState (viewStateOf (editor w))
             (commandEffect (host w) {| edits := value; initialSelection := sel |} (editor w))
      else commandEffect (host w) {| edits := value; initialSelection := sel |} (editor w))
  /\ (isEmpty sel = true -> viewStateOf (editor (apply sel value w).2) = viewStateOf (editor w)).
Proof.
  rewrite apply_steps. cbn [fst snd].
  destruct (isEmpty sel); cbn;
    rewrite ?WatchFacts.emit_all_calls, ?WatchFacts.emit_all_editor; cbn.
  - repeat rewrite <- app_assoc.
    split; [reflexivity|]. split; [reflexivity|]. split; [reflexivity|].
    intros _. apply (viewStateOf_putViewState (viewStateOf (editor w))).
  - split; [reflexivity|]. split; [reflexivity|]. split; [reflexivity|].
    discriminate.
Qed.

(** C10: the command that the action executes holds the selection read by
    [run] before the request, the one that chose between document and range
    formatting, whatever the selection of the editor is when the result
    arrives. *)
Theorem run_then_uses_request_selection (w0 w0' : World) (p : Pending) (w : World)
    (result : option (list ISingleEditOperation)) :
  run w0 = (Returned (Some p), w0') ->
  validates p w = true ->
  isFalsyOrEmpty result = false ->
  (exists m, calls w0' = calls w0 ++ [requestOf m (selection (editor w0));
                                      CallCaptureState (state p)])
  /\ (run_then p result w).1 = Returned tt
  /\ calls (run_then p result w).2 =
     calls w ++
     (if isEmpty (selection (editor w0))
      then [CallSaveViewState;
            CallExecuteCommand id {| edits := default [] result;
                                     initialSelection := selection (editor w0) |};
            CallRestoreViewState (viewStateOf (editor w));
            CallFocus]
      else [CallExecuteCommand id {| edits := default [] result;
                                     initialSelection := selection (editor w0) |};
            CallFocus]).
Proof.
  intros Hrun Hval Hres.
  destruct (run_pending w0 p w0' Hrun) as (m & Hm & -> & Hc & _).
  split; [exists m; exact Hc|].
  unfold run_then. unfold mbind, Eff_bind.
  rewrite validate_validates, Hval. cbn [negb]. rewrite Hres.
  rewrite apply_steps. cbn [editorSelection]. eff.
  destruct (isEmpty (selection (editor w0))); cbn;
    rewrite ?WatchFacts.emit_all_calls; cbn;
    repeat rewrite <- app_assoc; auto.
Qed.

(** Another edit arrives before the result, or the result is absent: the
    callback does nothing. *)
Lemma run_then_abandons_samples :
  run_then Samples.pendingCaret (Some [Samples.indent])
      (Samples.otherEdit (run Samples.oneCaret).2)
    = (Returned tt, Samples.otherEdit (run Samples.oneCaret).2)
  /\ run_then Samples.pendingCaret None (run Samples.oneCaret).2
     = (Returned tt, (run Samples.oneCaret).2).
Proof.
  split.
  - apply run_then_abandons. left. reflexivity.
  - apply run_then_abandons. right. reflexivity.
Defined.

(** The selection shrinks while the request is pending and the token still
    validates: the command holds the selection of before the request. *)
Lemma run_then_uses_request_selection_sample :
  selection (editor Samples.reselected) = Samples.span 5 4 5 8
  /\ calls (run_then Samples.pendingSelected (Some [Samples.indent]) Samples.reselected).2 =
     calls Samples.reselected ++
     [CallExecuteCommand id {| edits := [Samples.indent];
                               initialSelection := Samples.span 5 2 5 8 |};
      CallFocus].
Proof.
  split; [reflexivity|].
  exact (proj2 (proj2 (run_then_uses_request_selection
                         Samples.selected (run Samples.selected).2 Samples.pendingSelected
                         Samples.reselected (Some [Samples.indent])
                         eq_refl eq_refl eq_refl))).
Defined.

(** With a caret the view state comes back after the command; with a
    selection the command's own selection stands. *)
Example apply_view_state_samples :
  viewStateOf (editor (apply (Samples.caret 5 8) [Samples.indent] Samples.oneCaret).2)
    = viewStateOf (editor Samples.oneCaret)
  /\ selection (editor (apply (Samples.span 5 2 5 8) [Samples.indent] Samples.selected).2)
     = Samples.caret 1 1.
Proof. split; reflexivity. Qed.

End ActionFacts.

(** ** More on the watch *)

Module WatchAlgebra.
Import FormatOnType Notions Scenarios.

Lemma invalidating_mono L L' e : (L <= L')%Z -> invalidating L e -> invalidating L' e.
Proof. intros Hle. destruct e; cbn; lia || tauto. Qed.

(** X1: notifications compose: a sequence cancels the watch exactly when one
    of its two parts, delivered alone to a fresh watch at the same anchor,
    cancels it. *)
Theorem canceled_app (a : Position) (es1 es2 : list IModelContentChangedEvent) :
  canceled (deliver_all (es1 ++ es2) (startWatch a))
  = canceled (deliver_all es1 (startWatch a)) || canceled (deliver_all es2 (startWatch a)).
Proof.
  apply eq_true_iff_eq. rewrite orb_true_iff.
  rewrite !WatchFacts.deliver_all_start. apply Exists_app.
Qed.

(** X2: the order of the notifications does not matter to the outcome,
    although the listener assigns the flag anew at each call. *)
Theorem canceled_permutation (a : Position) (es es' : list IModelContentChangedEvent) :
  es ≡ₚ es' ->
  canceled (deliver_all es (startWatch a)) = canceled (deliver_all es' (startWatch a)).
Proof.
  intros Hp. apply eq_true_iff_eq. rewrite !WatchFacts.deliver_all_start.
  rewrite !Exists_exists. split; intros (e & Hin & Hinv); exists e; split; try exact Hinv.
  - rewrite <- Hp. exact Hin.
  - rewrite Hp. exact Hin.
Qed.

Lemma canceled_permutation_sample :
  canceled (deliver_all [ModelRawContentChangedLineChanged 9;
                         ModelRawContentChangedLinesInserted 2 3]
              (startWatch Samples.line5))
  = canceled (deliver_all [ModelRawContentChangedLinesInserted 2 3;
                           ModelRawContentChangedLineChanged 9]
                (startWatch Samples.line5)).
Proof. apply canceled_permutation. apply perm_swap. Defined.

(** X3: only the line of the anchor counts, and a lower anchor is canceled
    by at least the same sequences: what cancels a watch anchored at a line
    cancels every watch anchored at that line or further down, whatever the
    columns. *)
Theorem canceled_mono (a a' : Position) (es : list IModelContentChangedEvent) :
  (lineNumber a <= lineNumber a')%Z ->
  canceled (deliver_all es (startWatch a)) = true ->
  canceled (deliver_all es (startWatch a')) = true.
Proof.
  intros Hle. rewrite !WatchFacts.deliver_all_start, !Exists_exists.
  intros (e & Hin & Hinv). exists e. split; [exact Hin|].
  exact (invalidating_mono _ _ e Hle Hinv).
Qed.

Lemma canceled_mono_sample :
  canceled (deliver_all [ModelRawContentChangedLineChanged 5]
              (startWatch {| lineNumber := 7; column := 1 |})) = true.
Proof.
  apply (canceled_mono Samples.line5 {| lineNumber := 7; column := 1 |}).
  - cbn. lia.
  - reflexivity.
Defined.

(** X4: the listener looks at the last line of a deletion only: deletions
    that take the anchor line together with lines after it leave the watch
    not canceled. *)
Theorem deletion_across_anchor (a : Position) (es : list IModelContentChangedEvent) :
  Forall (deletesAcross (lineNumber a)) es ->
  canceled (deliver_all es (startWatch a)) = false.
Proof.
  intros Hall. apply not_true_is_false. rewrite WatchFacts.deliver_all_start.
  rewrite Exists_exists. intros (e & Hin & Hinv).
  rewrite Forall_forall in Hall.
  destruct (Hall e Hin) as (fromLine & toLine & -> & Hlines).
  cbn in Hinv. lia.
Qed.

Lemma deletion_across_anchor_sample :
  canceled (deliver_all [ModelRawContentChangedLinesDeleted 4 6;
                         ModelRawContentChangedLinesDeleted 5 9]
              (startWatch Samples.line5)) = false.
Proof.
  apply deletion_across_anchor.
  repeat constructor.
  - exists 4%Z, 6%Z. split; [reflexivity|cbn; lia].
  - exists 5%Z, 9%Z. split; [reflexivity|cbn; lia].
Defined.

End WatchAlgebra.

(** ** Re-evaluation and disposal of the contribution *)

Module ContributionFacts.
Import FormatOnType Contribution Notions Scenarios.

Lemma update_world w :
  update w = (Returned tt, set_callOnModel (fun _ => triggerCharacters w) w).
Proof. exact (OnTypeFacts.update_listeners w). Qed.

Lemma filter_absent (ch : string) (l : list string) :
  ch ∉ l -> filter (fun c => c = ch) l = [].
Proof.
  induction l as [|c l IH]; intros Hnot; [reflexivity|].
  apply not_elem_of_cons in Hnot as [Hne Hnot].
  rewrite filter_cons_False by congruence. apply IH, Hnot.
Qed.

Lemma steps_callOnDispose ss c : callOnDispose (steps ss c) = callOnDispose c.
Proof.
  unfold steps. revert c. induction ss as [|s ss IH]; intros c; [reflexivity|].
  cbn [fold_left]. rewrite IH. unfold step, fire. cbn [callOnDispose].
  case_decide; reflexivity.
Qed.

Lemma steps_snoc ss s c : steps (ss ++ [s]) c = step (steps ss c) s.
Proof. unfold steps. rewrite fold_left_app. reflexivity. Qed.

Lemma step_watches c s : watches (world (step c s)) = watches (world c).
Proof.
  unfold step, fire. cbn [callOnDispose world]. case_decide; [|reflexivity].
  cbn [world]. rewrite update_world. reflexivity.
Qed.

(** X5: when format-on-type is switched off, no model is attached or no
    provider is registered for the model, [update] removes every typing
    listener that an earlier evaluation registered, and typing a character
    starts nothing. *)
Theorem update_removes_listeners (w : World) :
  formatOnType (editor w) = false
  \/ model (editor w) = None
  \/ (exists m, model (editor w) = Some m /\ ordered (host w) m = []) ->
  callOnModel (update w).2 = []
  /\ forall ch, typed ch (update w).2 = (Returned tt, (update w).2).
Proof.
  intros H.
  assert (Hno : callOnModel (update w).2 = []).
  { rewrite update_world. cbn. unfold triggerCharacters.
    destruct H as [-> | [-> | (m & -> & ->)]]; [reflexivity| |];
      destruct (formatOnType (editor w)); reflexivity. }
  split; [exact Hno|].
  intros ch. apply OnTypeFacts.typed_without_listeners, Hno.
Qed.

Lemma update_removes_listeners_sample :
  callOnModel (update (set_editor switchOff listening)).2 = []
  /\ forall ch, typed ch (update (set_editor switchOff listening)).2
                = (Returned tt, (update (set_editor switchOff listening)).2).
Proof. apply update_removes_listeners. left. reflexivity. Defined.

(** X6: [update] replaces the typing listeners and touches nothing else:
    afterwards they are the trigger characters of the first provider, in the
    order declared and whatever was registered before, while the editor, the
    watches of requests in flight and the calls made so far are as they
    were. *)
Theorem update_replaces_listeners (w : World) :
  callOnModel (update w).2 = triggerCharacters w
  /\ editor (update w).2 = editor w
  /\ watches (update w).2 = watches w
  /\ calls (update w).2 = calls w.
Proof. rewrite update_world. repeat split. Qed.

(** X7: evaluating twice is evaluating once: listeners do not pile up when
    several events announce the same change. *)
Theorem update_idempotent (w : World) :
  update (update w).2 = (Returned tt, (update w).2).
Proof.
  rewrite (update_world w). cbn [snd]. rewrite update_world.
  reflexivity.
Qed.

(** X8: a character that is not a trigger character of the first provider
    starts nothing once [update] has run. *)
Theorem typed_undeclared (w : World) (ch : string) :
  ch ∉ triggerCharacters w ->
  typed ch (update w).2 = (Returned tt, (update w).2).
Proof.
  intros Hnot. rewrite update_world. cbn [snd]. unfold typed. eff.
  cbn [callOnModel set_callOnModel]. rewrite (filter_absent _ _ Hnot). reflexivity.
Qed.

Lemma typed_undeclared_sample :
  typed ")" (update listening).2 = (Returned tt, (update listening).2).
Proof.
  apply typed_undeclared. cbn.
  intros Hin. repeat (apply elem_of_cons in Hin as [Hin|Hin]; [discriminate|]).
  inversion Hin.
Defined.

(** X9: as long as the contribution is not disposed, each announced change
    of configuration, model, mode or registry leaves the typing listeners
    equal to the trigger characters in force after the change. *)
Theorem listeners_in_sync (w : World) (ss : list HostStep) :
  ss <> [] ->
  callOnModel (world (steps ss (constructor w)))
  = triggerCharacters (world (steps ss (constructor w))).
Proof.
  intros Hne. destruct ss as [|s ss _] using rev_ind; [congruence|].
  rewrite steps_snoc. unfold step, fire. cbn [callOnDispose world].
  rewrite steps_callOnDispose. cbn [callOnDispose constructor].
  rewrite decide_True by (destruct (announced s); rewrite !elem_of_cons; intuition).
  cbn [world]. rewrite update_world. reflexivity.
Qed.

Lemma listeners_in_sync_sample :
  callOnModel (world (steps [registered; configurationOff] (constructor Samples.oneCaret)))
  = triggerCharacters (world (steps [registered; configurationOff]
                                (constructor Samples.oneCaret))).
Proof. apply listeners_in_sync. discriminate. Defined.

(** X10: after [dispose] no announced change registers a typing listener
    again; the watches of requests still in flight are not released by it. *)
Theorem disposed_stays_silent (c : FormatOnType) (ss : list HostStep) :
  callOnModel (world (steps ss (dispose c))) = []
  /\ watches (world (steps ss (dispose c))) = watches (world c).
Proof.
  induction ss as [|s ss IH] using rev_ind; [split; reflexivity|].
  rewrite steps_snoc. destruct IH as [IHm IHw]. split.
  - unfold step, fire. cbn [callOnDispose world].
    rewrite steps_callOnDispose. cbn [callOnDispose dispose].
    rewrite decide_False by apply not_elem_of_nil. cbn [world]. exact IHm.
  - rewrite step_watches. exact IHw.
Qed.

End ContributionFacts.

(** ** An on-type request from start to end *)

Module CycleFacts.
Import FormatOnType Notions Scenarios.

Lemma trigger_world ch w m :
  (length (selections (editor w)) <= 1)%nat ->
  model (editor w) = Some m ->
  trigger ch w =
  (Returned tt,
   set_calls (fun l => l ++ [onTypeRequest m ch w])
     (set_watches (fun l => l ++ [startWatch (position (editor w))]) w)).
Proof.
  intros Hlen Hm. apply Nat.ltb_ge in Hlen.
  unfold trigger, onDidChangeModelRawContent. eff. rewrite Hlen, Hm. reflexivity.
Qed.

Lemma emit_all_frame es w :
  editor (emit_all es w) = editor w
  /\ calls (emit_all es w) = calls w
  /\ host (emit_all es w) = host w.
Proof.
  unfold emit_all. revert w. induction es as [|e es IH]; intros w; [auto|].
  cbn [fold_left]. destruct (IH (emit e w)) as (-> & -> & ->). auto.
Qed.

Lemma onFulfilled_calls unbind edits w wt :
  watches w !! unbind = Some wt ->
  calls (onFulfilled unbind edits w).2 =
  calls w ++ (if canceled wt || isFalsyOrEmpty edits then [] else [onTypeCommand edits w]).
Proof.
  intros Hwt. pose proof (OnTypeFacts.lookup_disposed _ _ _ Hwt) as Hd.
  unfold onFulfilled, unbind_dispose, readCanceled. eff.
  cbn [watches set_watches]. rewrite Hd. cbn [canceled disposed].
  destruct (canceled wt || isFalsyOrEmpty edits); cbn;
    [rewrite app_nil_r | rewrite WatchFacts.emit_all_calls]; reflexivity.
Qed.

(** X11: a whole on-type request: a trigger character is typed with at most
    one selection and a model attached, notifications arrive, the provider
    answers.  The only calls made are the request and, when no notification
    invalidated the anchor and the answer holds edits, one command; when a
    notification invalidated the anchor or the answer is empty or absent,
    the request alone. *)
Theorem on_type_cycle (ch : string) (w : World) (m : Model)
    (es : list IModelContentChangedEvent) (edits : option (list ISingleEditOperation)) :
  (length (selections (editor w)) <= 1)%nat ->
  model (editor w) = Some m ->
  (Exists (invalidating (lineNumber (position (editor w)))) es
   \/ isFalsyOrEmpty edits = true ->
   calls (onFulfilled (length (watches w)) edits (emit_all es (trigger ch w).2)).2
   = calls w ++ [onTypeRequest m ch w])
  /\ (~ Exists (invalidating (lineNumber (position (editor w)))) es ->
      isFalsyOrEmpty edits = false ->
      calls (onFulfilled (length (watches w)) edits (emit_all es (trigger ch w).2)).2
      = calls w ++ [onTypeRequest m ch w; onTypeCommand edits w]).
Proof.
  intros Hlen Hm.
  pose proof (OnTypeFacts.trigger_installs ch w Hlen) as Hwt.
  rewrite (trigger_world ch w m Hlen Hm) in *. cbn [snd] in *.
  set (w1 := set_calls _ _) in *.
  pose proof (WatchFacts.emit_all_lookup es w1 (length (watches w))) as Hlook.
  rewrite Hwt in Hlook. cbn in Hlook.
  rewrite (onFulfilled_calls _ edits _ _ Hlook).
  destruct (emit_all_frame es w1) as (He & Hc & _).
  rewrite Hc. unfold onTypeCommand. rewrite He.
  cbn [w1 calls set_calls editor set_watches].
  pose proof (WatchFacts.deliver_all_start (position (editor w)) es) as Hiff.
  destruct (canceled (deliver_all es (startWatch (position (editor w))))) eqn:Hcan;
    destruct (isFalsyOrEmpty edits) eqn:Hedits; cbn [orb];
    (split; [intros Hor | intros Hno Hsome]).
  - rewrite app_nil_r. reflexivity.
  - discriminate.
  - rewrite app_nil_r. reflexivity.
  - exfalso. apply Hno, Hiff. reflexivity.
  - rewrite app_nil_r. reflexivity.
  - discriminate.
  - destruct Hor as [Hex | Hemp]; [apply Hiff in Hex|]; discriminate.
  - rewrite <- app_assoc. reflexivity.
Qed.

Lemma on_type_cycle_sample :
  calls (onFulfilled 0 (Some [Samples.indent])
           (emit_all [ModelRawContentChangedLineChanged 6;
                      ModelRawContentChangedLinesInserted 8 9]
              (trigger "}" Samples.oneCaret).2)).2
  = [] ++ [onTypeRequest Samples.file "}" Samples.oneCaret;
           onTypeCommand (Some [Samples.indent]) Samples.oneCaret].
Proof.
  apply (proj2 (on_type_cycle "}" Samples.oneCaret Samples.file
                  [ModelRawContentChangedLineChanged 6;
                   ModelRawContentChangedLinesInserted 8 9]
                  (Some [Samples.indent])
                  ltac:(cbn; lia) eq_refl)).
  - intros Hex. apply Exists_cons in Hex as [H|Hex]; [cbn in H; lia|].
    apply Exists_cons in Hex as [H|Hex]; [cbn in H; lia|].
    inversion Hex.
  - reflexivity.
Defined.



(** X13: once a request is resolved, by either callback, notifications no
    longer reach its watch: the flag it had at resolution stays. *)
Theorem resolved_watch_frozen (w : World) (unbind : nat) (wt : Watch)
    (es : list IModelContentChangedEvent) :
  watches w !! unbind = Some wt ->
  (forall edits,
      watches (emit_all es (onFulfilled unbind edits w).2) !! unbind = Some (disposed wt))
  /\ (forall err,
      watches (emit_all es (onRejected unbind err w).2) !! unbind = Some (disposed wt)).
Proof.
  intros Hwt. pose proof (OnTypeFacts.lookup_disposed _ _ _ Hwt) as Hd.
  split.
  - intros edits. rewrite WatchFacts.emit_all_lookup.
    unfold onFulfilled, unbind_dispose, readCanceled. eff.
    cbn [watches set_watches]. rewrite Hd. cbn [canceled disposed].
    destruct (canceled wt || isFalsyOrEmpty edits); cbn;
      rewrite ?WatchFacts.emit_all_lookup;
      cbn [watches set_editor set_calls set_watches]; rewrite Hd; cbn;
      repeat rewrite (WatchFacts.deliver_all_unbound _ (disposed wt)) by reflexivity;
      reflexivity.
  - intros err. rewrite WatchFacts.emit_all_lookup.
    unfold onRejected, unbind_dispose. eff. cbn. rewrite Hd. cbn.
    rewrite WatchFacts.deliver_all_unbound; reflexivity.
Qed.

Lemma resolved_watch_frozen_sample :
  watches (emit_all [ModelRawContentChangedFlush]
             (onRejected 0 "provider failed" Samples.requested).2) !! 0%nat
  = Some (disposed (startWatch Samples.line5)).
Proof.
  exact (proj2 (resolved_watch_frozen Samples.requested 0 (startWatch Samples.line5)
                  [ModelRawContentChangedFlush] eq_refl) "provider failed").
Defined.

End CycleFacts.

(** ** More on the manual format action *)

Module ActionCycle.
Import FormatAction Notions Scenarios.

(** X14: the synchronous part of [run] only reads the editor: editor,
    typing listeners and watches are as before, whatever it returns; with no
    model attached it throws before any call is made. *)
Theorem run_reads_only (w : World) :
  editor (run w).2 = editor w
  /\ callOnModel (run w).2 = callOnModel w
  /\ watches (run w).2 = watches w
  /\ (model (editor w) = None -> run w = (Thrown "TypeError", w)).
Proof.
  unfold run, getDocumentFormattingEdits, getDocumentRangeFormattingEdits. eff.
  destruct (model (editor w)) as [m|].
  - destruct (isEmpty (selection (editor w)));
      [destruct (documentFormatting (host w) m) | destruct (rangeFormatting (host w) m)];
      cbn; repeat split; discriminate.
  - repeat split.
Qed.

(** X15: when the token validates and the result holds edits, the callback
    applies them and gives the editor the focus: the command made of the
    edits and of the selection read by [run] is executed, once, the document
    is what that command leaves and the watches of on-type requests in
    flight receive its changes.  If the selection read by [run] was empty,
    scroll position and selection end as they were when the result arrived;
    otherwise they are what the command left. *)
Theorem run_then_applies (p : Pending) (result : option (list ISingleEditOperation))
    (w : World) :
  validates p w = true ->
  isFalsyOrEmpty result = false ->
  (run_then p result w).1 = Returned tt
  /\ calls (run_then p result w).2 =
     calls w ++
     (if isEmpty (editorSelection p)
      then [CallSaveViewState;
            CallExecuteCommand id (formatCommand p result);
            CallRestoreViewState (viewStateOf (editor w));
            CallFocus]
      else [CallExecuteCommand id (formatCommand p result); CallFocus])
  /\ model (editor (run_then p result w).2)
     = model (commandEffect (host w) (formatCommand p result) (editor w))
  /\ watches (run_then p result w).2
     = deliver_all (commandChanges (host w) (formatCommand p result) (editor w))
       <$> watches w
  /\ focused (editor (run_then p result w).2) = true
  /\ (isEmpty (editorSelection p) = true ->
      viewStateOf (editor (run_then p result w).2) = viewStateOf (editor w))
  /\ (isEmpty (editorSelection p) = false ->
      viewStateOf (editor (run_then p result w).2)
      = viewStateOf (commandEffect (host w) (formatCommand p result) (editor w))).
Proof.
  intros Hval Hres. unfold run_then, formatCommand. unfold mbind, Eff_bind.
  rewrite ActionFacts.validate_validates, Hval. cbn [negb]. rewrite Hres.
  rewrite ActionFacts.apply_steps. eff.
  destruct (isEmpty (editorSelection p)); cbn;
    rewrite ?WatchFacts.emit_all_calls, ?WatchFacts.emit_all_editor,
      ?WatchFacts.emit_all_watches; cbn.
  - repeat rewrite <- app_assoc.
    split; [reflexivity|]. split; [reflexivity|]. split; [reflexivity|].
    split; [reflexivity|]. split; [reflexivity|]. split; [|discriminate].
    intros _. reflexivity.
  - repeat rewrite <- app_assoc.
    split; [reflexivity|]. split; [reflexivity|]. split; [reflexivity|].
    split; [reflexivity|]. split; [reflexivity|]. split; [discriminate|].
    intros _. reflexivity.
Qed.

(** The user scrolls while the request is pending: the command is executed
    and the scroll position is the one of the moment the result arrived. *)
Lemma run_then_applies_sample :
  calls (run_then Samples.pendingCaret (Some [Samples.indent])
           (scrolled (run Samples.oneCaret).2)).2
  = calls (scrolled (run Samples.oneCaret).2) ++
    [CallSaveViewState;
     CallExecuteCommand id {| edits := [Samples.indent];
                              initialSelection := Samples.caret 5 8 |};
     CallRestoreViewState (viewStateOf (editor (scrolled (run Samples.oneCaret).2)));
     CallFocus]
  /\ focused (editor (run_then Samples.pendingCaret (Some [Samples.indent])
                        (scrolled (run Samples.oneCaret).2)).2) = true
  /\ scrollTop (editor (run_then Samples.pendingCaret (Some [Samples.indent])
                          (scrolled (run Samples.oneCaret).2)).2) = 480%Z.
Proof.
  destruct (run_then_applies Samples.pendingCaret (Some [Samples.indent])
              (scrolled (run Samples.oneCaret).2) eq_refl eq_refl)
    as (_ & Hcalls & _ & _ & Hfocus & Hview & _).
  split; [exact Hcalls|]. split; [exact Hfocus|].
  exact (f_equal vsScrollTop (Hview eq_refl)).
Defined.

End ActionCycle.
